(** * MongoAccountTreeItem: the database listing of a Mongo account node

    A shallow embedding of [src/mongo/tree/MongoAccountTreeItem.ts]:
    [loadMoreChildrenImpl] (lines 52-93) and [validateDatabaseName]
    (lines 122-134), together with the little of JavaScript both rest on
    (strings as sequences of UTF-16 code units, truthiness, [includes],
    [toLowerCase], a regular expression object and its [test]). *)

From Stdlib Require Import List NArith Bool String Ascii Lia.
Import ListNotations.

Local Open Scope N_scope.
Local Open Scope list_scope.

(** ** JavaScript strings *)

Module Js.

(** A JavaScript string is a sequence of UTF-16 code units; [length] counts
    them, and so does the [.length] of the source. *)
Definition jsstring := list N.

Definition unit_of_ascii (a : ascii) : N := N_of_ascii a.

(** The code units of an ASCII literal. *)
Fixpoint lit (s : string) : jsstring :=
  match s with
  | EmptyString => []
  | String a rest => unit_of_ascii a :: lit rest
  end.

(** [===] on strings. *)
Fixpoint eqb (s t : jsstring) : bool :=
  match s, t with
  | [], [] => true
  | c :: s', k :: t' => (c =? k) && eqb s' t'
  | _, _ => false
  end.

(** [ToBoolean] of a value of type [string | undefined]: undefined and the
    empty string are falsy. *)
Definition truthy (v : option jsstring) : bool :=
  match v with
  | Some (_ :: _) => true
  | _ => false
  end.

(** [ToBoolean] of a value of type [boolean | undefined]. *)
Definition truthy_bool (v : option bool) : bool :=
  match v with
  | Some true => true
  | _ => false
  end.

Fixpoint startsWith (s pat : jsstring) {struct pat} : bool :=
  match pat, s with
  | [], _ => true
  | _ :: _, [] => false
  | p :: pat', c :: s' => (c =? p) && startsWith s' pat'
  end.

(** [String.prototype.includes]: [pat] occurs at some position of [s]. *)
Fixpoint includes (s pat : jsstring) : bool :=
  startsWith s pat ||
  match s with
  | [] => false
  | _ :: s' => includes s' pat
  end.

(** [String.prototype.toLowerCase] on the ASCII range: A-Z go to a-z. Code
    units above the ASCII range are left as they are; Unicode lower-cases
    none of them to one of the letters a, d, m, i, n alone, so the comparison
    of the result with "admin", the only use the source makes of it, is the
    one computed here. *)
Definition toLowerCaseUnit (c : N) : N :=
  if (65 <=? c) && (c <=? 90) then c + 32 else c.

Definition toLowerCase (s : jsstring) : jsstring := map toLowerCaseUnit s.

(** *** Regular expression objects

    The one pattern of the source is a character class; a RegExp object
    carries the class, its flags and the mutable [lastIndex]. *)
Record RegExp := mkRegExp {
  class : list N;
  global : bool;
  sticky : bool;
  lastIndex : nat
}.

Definition in_class (cls : list N) (c : N) : bool :=
  existsb (fun k => c =? k) cls.

(** The position, from [i] on, of the first code unit of [s] in the class. *)
Fixpoint first_match (cls : list N) (s : jsstring) (i : nat) : option nat :=
  match s with
  | [] => None
  | c :: s' => if in_class cls c then Some i else first_match cls s' (S i)
  end.

(** [RegExp.prototype.test] (RegExpBuiltinExec of ECMAScript) for a class
    pattern: without the g and y flags the search starts at 0 and [lastIndex]
    is not written; with one of them it starts at [lastIndex], which is then
    set to the end of the match, or to 0 on failure; y matches only at the
    start position. *)
Definition test (r : RegExp) (s : jsstring) : bool * RegExp :=
  let flagged := global r || sticky r in
  let start := if flagged then lastIndex r else 0%nat in
  let reset := mkRegExp (class r) (global r) (sticky r) 0 in
  if Nat.ltb (List.length s) start
  then (false, if flagged then reset else r)
  else
    let found :=
      if sticky r
      then match skipn start s with
           | c :: _ => if in_class (class r) c then Some start else None
           | [] => None
           end
      else first_match (class r) (skipn start s) start in
    match found with
    | None => (false, if flagged then reset else r)
    | Some e =>
        (true,
         if flagged
         then mkRegExp (class r) (global r) (sticky r) (S e)
         else r)
    end.

End Js.

Import Js.

(** ** Name validation (lines 122-134) *)

Module Validation.

Definition min : nat := 1.
Definition max : nat := 63.

(** The character class of the pattern on line 130: slash, backslash, dot,
    space, double quote, dollar, hash, question mark. *)
Definition forbidden : list N := [47; 92; 46; 32; 34; 36; 35; 63].

(** The object a regular expression literal evaluates to: no flags. The
    source evaluates the literal at every call, which gives [lastIndex] 0;
    the field is kept a parameter to cover an object shared between calls. *)
Definition nameRegExp (li : nat) : RegExp := mkRegExp forbidden false false li.

Definition lengthMessage : jsstring :=
  lit "Database name must be between 1 and 63 characters.".

Definition charactersMessage : jsstring :=
  lit "Database name cannot contain these characters - `/\. " ++ [34]
  ++ lit "$#?`".

(** [validateDatabaseName] over an explicit RegExp object: the message, or
    [None] for [undefined], and the object after the call. The argument is
    [None] for [undefined]. *)
Definition validateDatabaseNameOn (re : RegExp) (database : option jsstring)
  : option jsstring * RegExp :=
  match database with
  | None => (Some lengthMessage, re)
  | Some s =>
      if negb (truthy database)
         || Nat.ltb (List.length s) min || Nat.ltb max (List.length s)
      then (Some lengthMessage, re)
      else
        let (hit, re') := test re s in
        if hit then (Some charactersMessage, re') else (None, re')
  end.

Definition validateDatabaseName (database : option jsstring) : option jsstring :=
  fst (validateDatabaseNameOn (nameRegExp 0) database).

End Validation.

(** ** The listing operation (lines 52-93) *)

Module Listing.

(** An [Error] object; the handler on line 82 assigns its [message]. *)
Record JsError := mkError {
  errName : jsstring;
  message : jsstring
}.

(** [new Error(msg)] *)
Definition newError (msg : jsstring) : JsError := mkError (lit "Error") msg.

(** What the source reads of [parseError]'s result. *)
Record IParsedError := mkParsed {
  parsedMessage : jsstring
}.

(** [IDatabaseInfo] (lines 136-139): both fields are optional. *)
Record IDatabaseInfo := mkInfo {
  name : option jsstring;
  empty : option bool
}.

(** [DatabaseAccountGetResults] of the Azure SDK, as far as line 62 reads it. *)
Record DatabaseAccountGetResults := mkAccountResults {
  accountName : option jsstring
}.

(** The driver's client handle. *)
Definition MongoClient := nat.

(** How a promise that nobody awaits ends. *)
Inductive Settled :=
| Resolved
| Rejected (reason : JsError).

(** The fields of the tree item the listing reads. [connectionString] is
    [None] for an [undefined] that reached the constructor; [isEmulator] is
    [boolean | undefined] as on line 31. *)
Record MongoAccountTreeItem := mkAccount {
  id : jsstring;
  label : jsstring;
  connectionString : option jsstring;
  isEmulator : option bool;
  databaseAccount : option DatabaseAccountGetResults
}.

(** [new MongoDatabaseTreeItem(parent, databaseName, connectionString)] *)
Record MongoDatabaseTreeItem := mkDatabaseItem {
  parent : MongoAccountTreeItem;
  databaseName : jsstring;
  itemConnectionString : jsstring
}.

(** What the operation does to the outside, in order. The close event
    carries how the promise returned by [close()] settles: the source drops
    that promise, the world still sees it. *)
Inductive Event :=
| EvConnect (cs appName : jsstring)
| EvListDatabases (client : MongoClient) (db : jsstring)
| EvClose (client : MongoClient) (outcome : Settled)
| EvCloseThrew (client : MongoClient) (error : JsError).

(** How the call [mongoClient.close()] of line 90 completes: it returns a
    promise, which settles sooner or later, or the call itself throws. *)
Inductive CloseCall :=
| CloseReturns (promise : Settled)
| CloseThrows (error : JsError).

(** Everything the operation imports or calls outside this file: constants
    of [constants.ts], helpers of the repository and of the UI library, and
    the answers of the driver. *)
Record Env := mkEnv {
  LocalConnectionDebuggingTips : jsstring;
  testDb : jsstring;
  appendExtensionUserAgent : jsstring;
  nonNullError : jsstring -> JsError;
  getDatabaseNameFromConnectionString : jsstring -> option jsstring;
  parseError : JsError -> IParsedError;
  connectToMongoClient : jsstring -> jsstring -> JsError + MongoClient;
  listDatabases : MongoClient -> jsstring -> JsError + list IDatabaseInfo;
  close : MongoClient -> Settled
}.

(** The same environment with another answer of [close()]. *)
Definition withClose (env : Env) (c : MongoClient -> Settled) : Env :=
  mkEnv (LocalConnectionDebuggingTips env) (testDb env)
        (appendExtensionUserAgent env) (nonNullError env)
        (getDatabaseNameFromConnectionString env) (parseError env)
        (connectToMongoClient env) (listDatabases env) c.

(** Modelled from the spec: [nonNullProp] lives in [utils/nonNull.ts], which
    is not among the sources at hand. As its name and its use at type
    [string] on the optional [name] say, it returns the property when it is
    defined and throws otherwise; the error it throws is [nonNullError] of
    the environment, applied to the property's name. *)
Definition nonNullProp {A} (env : Env) (v : option A) (prop : jsstring)
  : JsError + A :=
  match v with
  | Some a => inr a
  | None => inl (nonNullError env prop)
  end.

(** *** The monad of the method body

    State: the local [mongoClient] of line 53 and the events so far.
    A computation ends in a thrown error or a value. *)
Record St := mkSt {
  mongoClient : option MongoClient;
  trace : list Event
}.

Definition M (A : Type) : Type := St -> (JsError + A) * St.

Definition ret {A} (a : A) : M A := fun st => (inr a, st).
Definition throw {A} (e : JsError) : M A := fun st => (inl e, st).

Definition bind {A B} (m : M A) (k : A -> M B) : M B :=
  fun st =>
    match m st with
    | (inl e, st') => (inl e, st')
    | (inr a, st') => k a st'
    end.

Notation "x <- m ;; k" := (bind m (fun x => k))
  (at level 61, m at next level, right associativity).
Notation "m ;;; k" := (bind m (fun _ => k))
  (at level 61, right associativity).

Definition emit (ev : Event) : M unit :=
  fun st => (inr tt, mkSt (mongoClient st) (trace st ++ [ev])).

Definition setMongoClient (c : MongoClient) : M unit :=
  fun st => (inr tt, mkSt (Some c) (trace st)).

Definition getMongoClient : M (option MongoClient) :=
  fun st => (inr (mongoClient st), st).

Definition liftResult {A} (r : JsError + A) : M A :=
  match r with
  | inl e => throw e
  | inr a => ret a
  end.

(** [try { body } catch (error) { throw handler(error) }] *)
Definition tryCatch {A} (body : M A) (handler : JsError -> JsError) : M A :=
  fun st =>
    match body st with
    | (inl e, st') => (inl (handler e), st')
    | (inr a, st') => (inr a, st')
    end.

(** [... finally { cleanup }] for a cleanup that completes normally: the
    completion of what precedes it stands. *)
Definition finally {A} (m : M A) (cleanup : M unit) : M A :=
  fun st =>
    match m st with
    | (r, st') =>
        match cleanup st' with
        | (inl e, st'') => (inl e, st'')
        | (inr _, st'') => (r, st'')
        end
    end.

(** [Array.prototype.map] with a callback that may throw: the first throw
    ends the whole call. *)
Fixpoint mapM {A B} (f : A -> M B) (l : list A) : M (list B) :=
  match l with
  | [] => ret []
  | a :: l' => b <- f a ;; bs <- mapM f l' ;; ret (b :: bs)
  end.

Section Method.

Variable env : Env.
Variable this : MongoAccountTreeItem.

(** Line 77, the callback of [filter]: keep unless the name is truthy,
    lower-cases to "admin" and [empty] is truthy. *)
Definition keepDatabase (database : IDatabaseInfo) : bool :=
  negb (truthy (name database)
        && match name database with
           | Some n => Js.eqb (toLowerCase n) (lit "admin")
           | None => false
           end
        && truthy_bool (empty database)).

(** Line 78, the callback of [map]. *)
Definition toTreeItem (cs : jsstring) (database : IDatabaseInfo)
  : M MongoDatabaseTreeItem :=
  n <- liftResult (nonNullProp env (name database) (lit "name")) ;;
  ret (mkDatabaseItem this n cs).

(** Lines 64-75: the descriptors to show. *)
Definition selectDatabases (cs : jsstring) (client : MongoClient)
  : M (list IDatabaseInfo) :=
  let databaseInConnectionString := getDatabaseNameFromConnectionString env cs in
  if truthy databaseInConnectionString && negb (truthy_bool (isEmulator this))
  then ret [mkInfo databaseInConnectionString (Some false)]
  else
    emit (EvListDatabases client (testDb env)) ;;;
    liftResult (listDatabases env client (testDb env)).

(** Line 62, the second argument of [connectToMongoClient]: the account's
    name when there is an account, the extension's user agent otherwise. *)
Definition clientAppName : JsError + jsstring :=
  match databaseAccount this with
  | Some account => nonNullProp env (accountName account) (lit "name")
  | None => inr (appendExtensionUserAgent env)
  end.

(** Lines 55-78: the body of [try]. *)
Definition tryBody : M (list MongoDatabaseTreeItem) :=
  cs <- match connectionString this with
        | Some cs =>
            if negb (truthy (connectionString this))
            then throw (newError (lit "Missing connection string"))
            else ret cs
        | None => throw (newError (lit "Missing connection string"))
        end ;;
  appName <- liftResult clientAppName ;;
  emit (EvConnect cs appName) ;;;
  client <- liftResult (connectToMongoClient env cs appName) ;;
  setMongoClient client ;;;
  databases <- selectDatabases cs client ;;
  mapM (toTreeItem cs) (filter keepDatabase databases).

(** The text of line 82. *)
Definition emulatorMessage (msg : jsstring) : jsstring :=
  lit "Unable to reach emulator. See " ++ LocalConnectionDebuggingTips env
  ++ lit " for debugging tips." ++ [10] ++ msg.

(** Lines 80-84: the error the [catch] block throws. *)
Definition catchHandler (error : JsError) : JsError :=
  let msg := parsedMessage (parseError env error) in
  if truthy_bool (isEmulator this) && includes msg (lit "ECONNREFUSED")
  then mkError (errName error) (emulatorMessage msg)
  else error.

(** Lines 87-91: the [finally] block, for any way the call of [close()]
    completes. The call is not guarded: if it throws, the block throws. If
    it returns its promise, the promise is not awaited, so whatever it
    settles to is only an event. *)
Definition finallyBlockWith (closeCall : MongoClient -> CloseCall) : M unit :=
  c <- getMongoClient ;;
  match c with
  | Some client =>
      match closeCall client with
      | CloseReturns promise => emit (EvClose client promise)
      | CloseThrows e => emit (EvCloseThrew client e) ;;; throw e
      end
  | None => ret tt
  end.

(** The method for any way the call of [close()] completes. *)
Definition loadMoreChildrenImplWithM (closeCall : MongoClient -> CloseCall)
  : M (list MongoDatabaseTreeItem) :=
  finally (tryCatch tryBody catchHandler) (finallyBlockWith closeCall).

(** The [finally] block with a [close()] that returns its promise, as the
    driver declares it ([close(): Promise<void>]); the promise settles as
    the environment says. *)
Definition finallyBlock : M unit :=
  finallyBlockWith (fun client => CloseReturns (close env client)).

Definition loadMoreChildrenImplM : M (list MongoDatabaseTreeItem) :=
  finally (tryCatch tryBody catchHandler) finallyBlock.

(** The method from its initial state: [mongoClient] undefined, nothing
    done yet. *)
Definition loadMoreChildrenImpl
  : (JsError + list MongoDatabaseTreeItem) * St :=
  loadMoreChildrenImplM (mkSt None []).

Definition outcome : JsError + list MongoDatabaseTreeItem :=
  fst loadMoreChildrenImpl.

Definition events : list Event := trace (snd loadMoreChildrenImpl).

(** The same from the initial state for any way the call of [close()]
    completes. *)
Definition loadMoreChildrenImplWith (closeCall : MongoClient -> CloseCall)
  : (JsError + list MongoDatabaseTreeItem) * St :=
  loadMoreChildrenImplWithM closeCall (mkSt None []).

Definition outcomeWith (closeCall : MongoClient -> CloseCall)
  : JsError + list MongoDatabaseTreeItem :=
  fst (loadMoreChildrenImplWith closeCall).

Definition eventsWith (closeCall : MongoClient -> CloseCall) : list Event :=
  trace (snd (loadMoreChildrenImplWith closeCall)).

(** How [try] and [catch] complete (lines 54-85), before the [finally]
    block: the primary outcome of the listing, and the state it leaves. *)
Definition primary : (JsError + list MongoDatabaseTreeItem) * St :=
  tryCatch tryBody catchHandler (mkSt None []).

Definition primaryOutcome : JsError + list MongoDatabaseTreeItem :=
  fst primary.

End Method.

(** The map of line 78 on a list of descriptors, as a value. *)
Fixpoint treeItems (env : Env) (this : MongoAccountTreeItem) (cs : jsstring)
    (l : list IDatabaseInfo) : JsError + list MongoDatabaseTreeItem :=
  match l with
  | [] => inr []
  | d :: l' =>
      match name d with
      | None => inl (nonNullError env (lit "name"))
      | Some n =>
          match treeItems env this cs l' with
          | inl e => inl e
          | inr items => inr (mkDatabaseItem this n cs :: items)
          end
      end
  end.

End Listing.

(** ** The filter and the validation as the specification words them *)

Module Spec.

Import Listing.

(** "admin" in any mix of upper and lower case, letter by letter. *)
Definition isAdminName (n : jsstring) : bool :=
  match n with
  | [a; d; m; i; n'] =>
      ((a =? 97) || (a =? 65)) && ((d =? 100) || (d =? 68))
      && ((m =? 109) || (m =? 77)) && ((i =? 105) || (i =? 73))
      && ((n' =? 110) || (n' =? 78))
  | _ => false
  end.

(** An entry is dropped when it is named admin, case-insensitively, and
    flagged empty. *)
Definition dropped (d : IDatabaseInfo) : bool :=
  match name d, empty d with
  | Some n, Some true => isAdminName n
  | _, _ => false
  end.

Definition kept (d : IDatabaseInfo) : bool := negb (dropped d).

(** The characters a name must not contain, as the naming rule lists
    them: slash, backslash, dot, space, double quote (code unit 34), dollar,
    hash, question mark. *)
Definition forbiddenCharacters : jsstring :=
  lit "/\. " ++ [34] ++ lit "$#?".

(** A name contains one of the forbidden characters. *)
Definition hasForbidden (s : jsstring) : Prop :=
  exists c, In c s /\ In c forbiddenCharacters.

(** The two texts shown for a name that is refused. *)
Definition lengthText : jsstring :=
  lit "Database name must be between 1 and 63 characters.".

Definition charactersText : jsstring :=
  lit "Database name cannot contain these characters - `/\. " ++ [34]
  ++ lit "$#?`".

(** What the naming rule refuses: no name at all, a length outside 1..63,
    a forbidden character. *)
Definition lengthViolation (database : option jsstring) : Prop :=
  match database with
  | None => True
  | Some s => s = [] \/ (List.length s < 1)%nat \/ (63 < List.length s)%nat
  end.

Definition violation (database : option jsstring) : Prop :=
  lengthViolation database
  \/ exists s, database = Some s /\ hasForbidden s.

End Spec.

(** ** Sample accounts and environments *)

Module Samples.

Import Listing.

Definition salesUrl : jsstring := lit "mongodb://localhost:10255/Sales".
Definition plainUrl : jsstring := lit "mongodb://localhost:10255".

Definition refused : JsError :=
  newError (lit "connect ECONNREFUSED 127.0.0.1:10255").

(** The listing of the specification's example. *)
Definition exampleListing : list IDatabaseInfo :=
  [ mkInfo (Some (lit "admin")) (Some true);
    mkInfo (Some (lit "admin")) (Some false);
    mkInfo (Some (lit "Sales")) (Some false) ].

Definition namelessListing : list IDatabaseInfo :=
  [ mkInfo (Some (lit "Sales")) (Some false); mkInfo None (Some false) ].

Definition envWith
    (connect : JsError + MongoClient)
    (listing : JsError + list IDatabaseInfo) : Env :=
  mkEnv (lit "https://aka.ms/AA5zah5") (lit "test") (lit "vscode-cosmosdb")
        (fun prop => newError (lit "Expected a value: " ++ prop))
        (fun cs => if Js.eqb cs salesUrl then Some (lit "Sales") else None)
        (fun e => mkParsed (message e))
        (fun _ _ => connect)
        (fun _ _ => listing)
        (fun _ => Rejected (newError (lit "Topology was destroyed"))).

Definition env : Env := envWith (inr 7%nat) (inr exampleListing).
Definition envRefused : Env := envWith (inl refused) (inr exampleListing).
Definition envListRefused : Env := envWith (inr 7%nat) (inl refused).
Definition envNameless : Env := envWith (inr 7%nat) (inr namelessListing).

(** A [close()] that throws instead of returning its promise. *)
Definition closeError : JsError := newError (lit "Topology was destroyed").
Definition throwingClose : MongoClient -> CloseCall :=
  fun _ => CloseThrows closeError.

Definition account (cs : option jsstring) (emulator : option bool)
  : MongoAccountTreeItem :=
  mkAccount (lit "/attached/1") (lit "localhost:10255") cs emulator None.

Definition salesAccount := account (Some salesUrl) (Some false).
Definition plainAccount := account (Some plainUrl) None.
Definition salesEmulator := account (Some salesUrl) (Some true).
Definition emptyAccount := account (Some []) (Some true).

End Samples.

(** ** The body of the listing, case by case *)

Module Direct.

Import Listing.

(** The same environment with another reading of connection strings. *)
Definition withParser (env : Env) (g : jsstring -> option jsstring) : Env :=
  mkEnv (LocalConnectionDebuggingTips env) (testDb env)
        (appendExtensionUserAgent env) (nonNullError env)
        g (parseError env)
        (connectToMongoClient env) (listDatabases env) (close env).

(** The error of line 58. *)
Definition missingConnectionString : JsError :=
  newError (lit "Missing connection string").

(** Where the body of [try] ends from the initial state, following lines
    57-78 one decision after the other: the guard, the client's name, the
    connection, the choice between the named database and the server's
    list, the filter and the map. *)
Definition bodyResult (env : Env) (this : MongoAccountTreeItem)
  : (JsError + list MongoDatabaseTreeItem) * St :=
  match connectionString this with
  | Some (c :: cs') =>
      let cs := c :: cs' in
      match clientAppName env this with
      | inl e => (inl e, mkSt None [])
      | inr appName =>
          match connectToMongoClient env cs appName with
          | inl e => (inl e, mkSt None [EvConnect cs appName])
          | inr client =>
              let named := getDatabaseNameFromConnectionString env cs in
              if truthy named && negb (truthy_bool (isEmulator this))
              then (treeItems env this cs
                      (filter keepDatabase [mkInfo named (Some false)]),
                    mkSt (Some client) [EvConnect cs appName])
              else (match listDatabases env client (testDb env) with
                    | inl e => inl e
                    | inr databases =>
                        treeItems env this cs (filter keepDatabase databases)
                    end,
                    mkSt (Some client)
                         [EvConnect cs appName;
                          EvListDatabases client (testDb env)])
          end
      end
  | _ => (inl missingConnectionString, mkSt None [])
  end.

End Direct.

(** ** Creating a child (lines 95-104) *)

Module Creation.

Import Listing.

(** The options of line 96-100. *)
Record InputBoxOptions := mkOptions {
  placeHolder : jsstring;
  prompt : jsstring;
  validateInput : jsstring -> option jsstring
}.

(** [ext.ui]: the input box answers with the text the user accepted, or
    throws (the user cancelled). *)
Record Ui := mkUi {
  showInputBox : InputBoxOptions -> JsError + jsstring
}.

Inductive UiEvent :=
| EvShowInputBox (placeHolder prompt : jsstring)
| EvShowCreatingTreeItem (label : jsstring).

(** The constructor call of line 103: its third argument is the account's
    connection string as it is, without the guard of line 57. *)
Record NewDatabaseTreeItem := mkNewItem {
  newParent : MongoAccountTreeItem;
  newDatabaseName : jsstring;
  newConnectionString : option jsstring
}.

Definition nameOptions : InputBoxOptions :=
  mkOptions (lit "Database Name") (lit "Enter the name of the database")
            (fun value => Validation.validateDatabaseName (Some value)).

Definition createChildImpl (ui : Ui) (this : MongoAccountTreeItem)
  : (JsError + NewDatabaseTreeItem) * list UiEvent :=
  let asked := EvShowInputBox (placeHolder nameOptions) (prompt nameOptions) in
  match showInputBox ui nameOptions with
  | inl e => (inl e, [asked])
  | inr databaseName =>
      (inr (mkNewItem this databaseName (connectionString this)),
       [asked; EvShowCreatingTreeItem databaseName])
  end.

(** An input box in front of a user who types the [attempts] one after the
    other: the box accepts the first text its validator has no message for
    (undefined or the empty string), and the user gives up after the last. *)
Fixpoint firstAccepted (validate : jsstring -> option jsstring)
    (attempts : list jsstring) : option jsstring :=
  match attempts with
  | [] => None
  | value :: rest =>
      if truthy (validate value) then firstAccepted validate rest
      else Some value
  end.

Definition cancelled : JsError :=
  mkError (lit "UserCancelledError") (lit "Operation cancelled.").

Definition scriptedUi (attempts : list jsstring) : Ui :=
  mkUi (fun options =>
          match firstAccepted (validateInput options) attempts with
          | Some value => inr value
          | None => inl cancelled
          end).

(** The input box honours its validator: what it answers, the validator has
    no message for. *)
Definition honoursValidator (ui : Ui) : Prop :=
  forall options value,
    showInputBox ui options = inr value ->
    truthy (validateInput options value) = false.

End Creation.

(** * Properties *)

Ltac nat_cmp :=
  repeat match goal with
  | H : Nat.ltb _ _ = true |- _ => apply PeanoNat.Nat.ltb_lt in H
  | H : Nat.ltb _ _ = false |- _ => apply PeanoNat.Nat.ltb_ge in H
  end.

(** ** Strings *)

Module JsFacts.

Lemma eqb_eq (s t : jsstring) : Js.eqb s t = true <-> s = t.
Proof.
  revert t; induction s as [|c s IH]; intros [|k t]; simpl;
    try (split; [discriminate|congruence]); [tauto|].
  rewrite andb_true_iff, N.eqb_eq, IH. split.
  - intros [-> ->]; reflexivity.
  - intros E; injection E; auto.
Qed.

Lemma startsWith_app (pat rest : jsstring) : startsWith (pat ++ rest) pat = true.
Proof.
  induction pat as [|p pat IH]; simpl; [reflexivity|].
  now rewrite N.eqb_refl, IH.
Qed.

Lemma includes_startsWith (s pat : jsstring) :
  startsWith s pat = true -> includes s pat = true.
Proof.
  destruct s; simpl; intros ->; reflexivity.
Qed.

Lemma includes_app (pre pat post : jsstring) :
  includes (pre ++ pat ++ post) pat = true.
Proof.
  induction pre as [|c pre IH]; simpl.
  - apply includes_startsWith, startsWith_app.
  - rewrite IH. apply orb_true_r.
Qed.

Lemma includes_suffix (pre pat : jsstring) : includes (pre ++ pat) pat = true.
Proof.
  rewrite <- (app_nil_r pat) at 1. apply includes_app.
Qed.

Lemma startsWith_split (s pat : jsstring) :
  startsWith s pat = true -> exists post, s = pat ++ post.
Proof.
  revert s; induction pat as [|p pat IH]; intros s H.
  - now exists s.
  - destruct s as [|c s]; simpl in H; [discriminate|].
    apply andb_true_iff in H as [Hc Hs]. apply N.eqb_eq in Hc; subst c.
    destruct (IH _ Hs) as [post ->]. now exists post.
Qed.

(** [includes] finds exactly the substrings. *)
Lemma includes_iff (s pat : jsstring) :
  includes s pat = true <-> exists pre post, s = pre ++ pat ++ post.
Proof.
  split.
  - induction s as [|c s IH]; simpl; intro H.
    + rewrite orb_false_r in H. destruct (startsWith_split _ _ H) as [post E].
      now exists [], post.
    + apply orb_true_iff in H as [H|H].
      * destruct (startsWith_split _ _ H) as [post E]. now exists [], post.
      * destruct (IH H) as (pre & post & ->). now exists (c :: pre), post.
  - intros (pre & post & ->). apply includes_app.
Qed.

Lemma toLowerCaseUnit_is (c k : N) :
  97 <= k <= 122 ->
  (toLowerCaseUnit c =? k) = ((c =? k) || (c =? k - 32)).
Proof.
  intros Hk. unfold toLowerCaseUnit.
  apply eq_iff_eq_true.
  destruct (65 <=? c) eqn:H1; destruct (c <=? 90) eqn:H2; simpl;
    rewrite orb_true_iff, !N.eqb_eq;
    [apply N.leb_le in H1; apply N.leb_le in H2
    |apply N.leb_le in H1; apply N.leb_gt in H2
    |apply N.leb_gt in H1; apply N.leb_le in H2
    |apply N.leb_gt in H1; apply N.leb_gt in H2]; lia.
Qed.

(** Lower-casing and comparing with "admin" is the letter-by-letter test. *)
Lemma toLowerCase_admin (n : jsstring) :
  Js.eqb (toLowerCase n) (lit "admin") = Spec.isAdminName n.
Proof.
  destruct n as [|c1 [|c2 [|c3 [|c4 [|c5 [|c6 r]]]]]];
    unfold toLowerCase, lit, unit_of_ascii; simpl map; simpl Js.eqb;
    rewrite ?andb_false_r; try reflexivity.
  rewrite (toLowerCaseUnit_is c1), (toLowerCaseUnit_is c2),
    (toLowerCaseUnit_is c3), (toLowerCaseUnit_is c4), (toLowerCaseUnit_is c5)
    by (simpl; lia).
  simpl. rewrite andb_true_r, !andb_assoc. reflexivity.
Qed.

End JsFacts.

(** ** Name validation *)

Module ValidationFacts.

Import Validation.

Lemma in_class_In (cls : list N) (c : N) :
  in_class cls c = true <-> In c cls.
Proof.
  unfold in_class. rewrite existsb_exists. split.
  - intros (k & Hk & E). apply N.eqb_eq in E. now subst.
  - intros H. exists c. split; [assumption|apply N.eqb_refl].
Qed.

Lemma first_match_none (cls : list N) (s : jsstring) (i : nat) :
  first_match cls s i = None <-> existsb (in_class cls) s = false.
Proof.
  revert i; induction s as [|c s IH]; intros i; simpl; [tauto|].
  destruct (in_class cls c); simpl; [split; discriminate|apply IH].
Qed.

(** Without flags, [test] answers whether some code unit is in the class,
    whatever [lastIndex] holds, and leaves the object as it was. *)
Lemma test_unflagged (cls : list N) (li : nat) (s : jsstring) :
  test (mkRegExp cls false false li) s
  = (existsb (in_class cls) s, mkRegExp cls false false li).
Proof.
  unfold test; simpl.
  destruct (first_match cls s 0) eqn:E.
  - destruct (existsb (in_class cls) s) eqn:X; [reflexivity|].
    apply first_match_none with (i := 0%nat) in X. congruence.
  - apply first_match_none in E. now rewrite E.
Qed.

Lemma existsb_forbidden (s : jsstring) :
  existsb (in_class forbidden) s = true <-> Spec.hasForbidden s.
Proof.
  unfold Spec.hasForbidden. rewrite existsb_exists.
  split; intros (c & Hc & H); exists c; (split; [assumption|]);
    now apply in_class_In.
Qed.

(** The three outcomes of the validation, by the checks of lines 127 and
    130. *)
Lemma validateDatabaseNameOn_eq (li : nat) (database : option jsstring) :
  validateDatabaseNameOn (nameRegExp li) database
  = (match database with
     | None => Some lengthMessage
     | Some s =>
         if Nat.ltb (List.length s) 1 || Nat.ltb 63 (List.length s)
         then Some lengthMessage
         else if existsb (in_class forbidden) s
              then Some charactersMessage
              else None
     end, nameRegExp li).
Proof.
  destruct database as [s|]; [|reflexivity].
  unfold validateDatabaseNameOn, nameRegExp, min, max.
  rewrite test_unflagged.
  destruct s as [|c s]; [reflexivity|].
  change (negb (truthy (Some (c :: s)))) with false.
  change (Nat.ltb (List.length (c :: s)) 1) with false.
  destruct (Nat.ltb 63 (List.length (c :: s)));
    destruct (existsb (in_class forbidden) (c :: s)); reflexivity.
Qed.

(** The three ways the validation ends, against the naming rule. *)
Lemma validateDatabaseName_cases (database : option jsstring) :
  (Spec.lengthViolation database
   /\ validateDatabaseName database = Some Spec.lengthText)
  \/ (~ Spec.lengthViolation database
      /\ (exists s, database = Some s /\ Spec.hasForbidden s)
      /\ validateDatabaseName database = Some Spec.charactersText)
  \/ (~ Spec.violation database /\ validateDatabaseName database = None).
Proof.
  destruct database as [s|]; [|left; split; [exact I|reflexivity]].
  unfold validateDatabaseName. rewrite validateDatabaseNameOn_eq. cbn [fst].
  unfold Spec.violation, Spec.lengthViolation.
  destruct (Nat.ltb (List.length s) 1) eqn:L1;
    destruct (Nat.ltb 63 (List.length s)) eqn:L2; cbn [orb]; nat_cmp;
    try (left; split; [right; lia|reflexivity]).
  assert (Hlen : ~ (s = [] \/ (List.length s < 1)%nat \/ (63 < List.length s)%nat)).
  { intros [->|[H|H]]; simpl in *; lia. }
  destruct (existsb (in_class forbidden) s) eqn:X.
  - right; left. split; [exact Hlen|]. split; [|reflexivity].
    exists s. split; [reflexivity|]. now apply existsb_forbidden.
  - right; right. split; [|reflexivity].
    intros [H|(s' & E & H)]; [exact (Hlen H)|].
    injection E as <-. apply existsb_forbidden in H. congruence.
Qed.

(** C7: for every input, validation returns a violation message, a
    non-empty text, exactly when the input is undefined or empty, its length
    is outside 1..63, or it contains one of the characters slash, backslash,
    dot, space, double quote, dollar, hash, question mark; it returns no
    message otherwise. The text is the one about the length (Database name
    must be between 1 and 63 characters.) exactly in the first two cases,
    and the one about the characters exactly for a name of admissible length
    with a forbidden character. The empty name and every 64-character name
    are refused for their length, My/DB for its slash; Sales2024 is
    accepted. *)
Theorem validateDatabaseName_characterisation :
  (forall database : option jsstring,
      (truthy (validateDatabaseName database) = true <->
       Spec.violation database)
      /\ (validateDatabaseName database <> None <-> Spec.violation database)
      /\ (validateDatabaseName database = None <-> ~ Spec.violation database)
      /\ (validateDatabaseName database
          = Some (lit "Database name must be between 1 and 63 characters.") <->
          Spec.lengthViolation database)
      /\ (validateDatabaseName database
          = Some (lit "Database name cannot contain these characters - `/\. "
                  ++ [34] ++ lit "$#?`") <->
          ~ Spec.lengthViolation database
          /\ exists s, database = Some s /\ Spec.hasForbidden s))
  /\ validateDatabaseName (Some []) = Some Spec.lengthText
  /\ (forall s : jsstring,
        List.length s = 64%nat ->
        validateDatabaseName (Some s) = Some Spec.lengthText)
  /\ validateDatabaseName (Some (lit "My/DB")) = Some Spec.charactersText
  /\ validateDatabaseName (Some (lit "Sales2024")) = None
  /\ (forall c : N,
        In c Spec.forbiddenCharacters <->
        c = 47 \/ c = 92 \/ c = 46 \/ c = 32 \/ c = 34 \/ c = 36
        \/ c = 35 \/ c = 63).
Proof.
  split; [|split; [|split; [|split; [|split]]]].
  - intros database.
    change (lit "Database name must be between 1 and 63 characters.")
      with Spec.lengthText.
    change (lit "Database name cannot contain these characters - `/\. "
            ++ [34] ++ lit "$#?`") with Spec.charactersText.
    destruct (validateDatabaseName_cases database)
      as [[Hv ->]|[(Hl & Hc & ->)|[Hn ->]]].
    + assert (V : Spec.violation database) by now left.
      repeat split; try (intros; assumption); try reflexivity;
        try discriminate; try tauto.
    + assert (V : Spec.violation database) by now right.
      repeat split; try (intros; assumption); try reflexivity;
        try discriminate; try tauto.
    + repeat split; try (intros; assumption); try reflexivity;
        try discriminate; try tauto.
      * intros V. elim Hn. now left.
      * intros [_ V]. elim Hn. now right.
  - reflexivity.
  - intros s Hs.
    destruct (validateDatabaseName_cases (Some s))
      as [[_ E]|[(Hl & _)|[Hn _]]]; [exact E| |].
    + elim Hl. simpl. right; right. lia.
    + elim Hn. left. simpl. right; right. lia.
  - reflexivity.
  - reflexivity.
  - intros c. unfold Spec.forbiddenCharacters. simpl. 
    split; intros H; repeat (destruct H as [H|H]; [subst; tauto|]);
      tauto || (subst; tauto).
Qed.

(** C9: validation is pure. Run on the regular expression object of its
    literal, in any state of that object, it returns the object unchanged
    and the result of [validateDatabaseName], which depends on the input
    alone; so a second call on the same input, on the object the first call
    left behind, returns the same result. *)
Theorem validateDatabaseName_pure :
  forall (database : option jsstring) (li : nat),
    validateDatabaseNameOn (nameRegExp li) database
    = (validateDatabaseName database, nameRegExp li)
    /\ (forall li' : nat,
          fst (validateDatabaseNameOn (nameRegExp li') database)
          = fst (validateDatabaseNameOn (nameRegExp li) database))
    /\ validateDatabaseNameOn
         (snd (validateDatabaseNameOn (nameRegExp li) database)) database
       = validateDatabaseNameOn (nameRegExp li) database.
Proof.
  intros database li.
  assert (E : forall k, validateDatabaseNameOn (nameRegExp k) database
                        = (validateDatabaseName database, nameRegExp k)).
  { intros k. unfold validateDatabaseName.
    rewrite !validateDatabaseNameOn_eq. reflexivity. }
  split; [apply E|]. split.
  - intros li'. rewrite !E. reflexivity.
  - rewrite E. simpl snd. apply E.
Qed.

End ValidationFacts.

(** ** The listing operation *)

Module ListingFacts.

Import Listing.

(** *** The filter *)

(** The callback of line 77 keeps exactly what the specification keeps. *)
Lemma keepDatabase_kept (d : IDatabaseInfo) : keepDatabase d = Spec.kept d.
Proof.
  unfold keepDatabase, Spec.kept, Spec.dropped.
  destruct d as [[n|] [[|]|]]; simpl; rewrite ?andb_false_r, ?andb_true_r;
    try reflexivity.
  rewrite JsFacts.toLowerCase_admin.
  destruct n; reflexivity.
Qed.

Lemma keepDatabase_nameless (d : IDatabaseInfo) :
  name d = None -> keepDatabase d = true.
Proof.
  unfold keepDatabase. now intros ->.
Qed.

Lemma keepDatabase_not_empty (d : IDatabaseInfo) :
  empty d <> Some true -> keepDatabase d = true.
Proof.
  rewrite keepDatabase_kept. unfold Spec.kept, Spec.dropped.
  destruct (name d); destruct (empty d) as [[|]|]; simpl; intros H;
    reflexivity || congruence.
Qed.

(** *** Running the method *)

(** [try], [catch] and [finally] around the body: the handler maps a thrown
    error, a value passes, and the client, if one was assigned, is closed
    last. *)
Lemma loadMoreChildrenImpl_run (env : Env) (this : MongoAccountTreeItem) :
  loadMoreChildrenImpl env this
  = (match fst (tryBody env this (mkSt None [])) with
     | inl e => inl (catchHandler env this e)
     | inr items => inr items
     end,
     let st := snd (tryBody env this (mkSt None [])) in
     match mongoClient st with
     | Some client =>
         mkSt (Some client) (trace st ++ [EvClose client (close env client)])
     | None => st
     end).
Proof.
  unfold loadMoreChildrenImpl, loadMoreChildrenImplM, finally, tryCatch.
  destruct (tryBody env this (mkSt None [])) as [[e|items] [c tr]];
    destruct c; reflexivity.
Qed.

Lemma mapM_toTreeItem env this cs (l : list IDatabaseInfo) (st : St) :
  mapM (toTreeItem env this cs) l st = (treeItems env this cs l, st).
Proof.
  induction l as [|d l IH]; [reflexivity|].
  simpl. unfold bind at 1. unfold toTreeItem at 1, bind, nonNullProp.
  destruct (name d) as [n|]; simpl; [|reflexivity].
  unfold bind. rewrite IH. destruct (treeItems env this cs l); reflexivity.
Qed.


Lemma treeItems_nameless env this cs (l : list IDatabaseInfo) :
  (exists d, In d l /\ name d = None) ->
  treeItems env this cs l = inl (nonNullError env (lit "name")).
Proof.
  induction l as [|d l IH]; intros (x & Hin & Hx); [destruct Hin|].
  simpl. destruct (name d) as [n|] eqn:E; [|reflexivity].
  destruct Hin as [->|Hin]; [congruence|].
  rewrite IH; [reflexivity|]. now exists x.
Qed.

Section Runs.

Variable env : Env.
Variable this : MongoAccountTreeItem.

(** No connection string: the body throws at line 58. *)
Lemma tryBody_missing :
  truthy (connectionString this) = false ->
  tryBody env this (mkSt None [])
  = (inl (newError (lit "Missing connection string")), mkSt None []).
Proof.
  unfold tryBody, bind. destruct (connectionString this) as [[|c cs]|];
    simpl; intros H; try discriminate; reflexivity.
Qed.

Variable cs : jsstring.
Hypothesis Hcs : connectionString this = Some cs.
Hypothesis Hne : cs <> [].

Lemma tryBody_no_appName (e : JsError) :
  clientAppName env this = inl e ->
  tryBody env this (mkSt None []) = (inl e, mkSt None []).
Proof.
  intros Ha. unfold tryBody, bind. rewrite Hcs, Ha.
  destruct cs; [congruence|reflexivity].
Qed.

Variable appName : jsstring.
Hypothesis Happ : clientAppName env this = inr appName.

(** The connection fails: the body throws the driver's error at line 62. *)
Lemma tryBody_refused (e : JsError) :
  connectToMongoClient env cs appName = inl e ->
  tryBody env this (mkSt None []) = (inl e, mkSt None [EvConnect cs appName]).
Proof.
  intros Hc. unfold tryBody, bind. rewrite Hcs, Happ.
  destruct cs; [congruence|]. simpl. now rewrite Hc.
Qed.

Variable client : MongoClient.
Hypothesis Hconn : connectToMongoClient env cs appName = inr client.

Lemma tryBody_connected :
  tryBody env this (mkSt None [])
  = (databases <- selectDatabases env this cs client ;;
     mapM (toTreeItem env this cs) (filter keepDatabase databases))
      (mkSt (Some client) [EvConnect cs appName]).
Proof.
  unfold tryBody. unfold bind at 1 2 3 4 5. rewrite Hcs, Happ.
  destruct cs; [congruence|]. simpl. now rewrite Hconn.
Qed.

(** The connection string names a database and the account is no emulator:
    lines 67-70. *)
Lemma tryBody_named (D : jsstring) :
  getDatabaseNameFromConnectionString env cs = Some D ->
  D <> [] ->
  isEmulator this <> Some true ->
  tryBody env this (mkSt None [])
  = (inr [mkDatabaseItem this D cs], mkSt (Some client) [EvConnect cs appName]).
Proof.
  intros HD HDne Hemu. rewrite tryBody_connected.
  unfold bind, selectDatabases. rewrite HD.
  assert (E : truthy (Some D) && negb (truthy_bool (isEmulator this)) = true).
  { destruct D; [congruence|]. destruct (isEmulator this) as [[|]|];
      [congruence|reflexivity|reflexivity]. }
  rewrite E. unfold ret. rewrite mapM_toTreeItem.
  unfold filter. rewrite keepDatabase_not_empty by (simpl; congruence).
  reflexivity.
Qed.

(** Otherwise the server is asked: lines 73-78. *)
Lemma tryBody_listed :
  truthy (getDatabaseNameFromConnectionString env cs)
  && negb (truthy_bool (isEmulator this)) = false ->
  tryBody env this (mkSt None [])
  = (match listDatabases env client (testDb env) with
     | inl e => inl e
     | inr databases => treeItems env this cs (filter keepDatabase databases)
     end,
     mkSt (Some client)
          [EvConnect cs appName; EvListDatabases client (testDb env)]).
Proof.
  intros Hsel. rewrite tryBody_connected.
  unfold bind at 1. unfold selectDatabases. rewrite Hsel.
  unfold bind, emit. simpl.
  destruct (listDatabases env client (testDb env)) as [e|databases]; simpl;
    [reflexivity|].
  now rewrite mapM_toTreeItem.
Qed.

End Runs.

End ListingFacts.

(** ** What the listing guarantees *)

Module ListingProperties.

Import Listing ListingFacts.

Ltac run_with L :=
  unfold outcome, events; rewrite loadMoreChildrenImpl_run, L;
  cbn [fst snd mongoClient trace app].

Lemma emulatorMessage_split (env : Env) (msg : jsstring) :
  emulatorMessage env msg
  = (lit "Unable to reach emulator. See " ++ LocalConnectionDebuggingTips env
     ++ lit " for debugging tips." ++ [10]) ++ msg.
Proof.
  unfold emulatorMessage. now rewrite <- !app_assoc.
Qed.


(** C2, as the code has it: for an account whose isEmulator flag is true
    and whose client connection opens, the listing issues the administrative
    list-databases call, whether or not the connection string names a
    database, and its result is what that call gave, filtered and mapped. *)
Theorem emulator_always_lists :
  forall (env : Env) (this : MongoAccountTreeItem) (cs appName : jsstring)
         (client : MongoClient),
    isEmulator this = Some true ->
    connectionString this = Some cs ->
    cs <> [] ->
    clientAppName env this = inr appName ->
    connectToMongoClient env cs appName = inr client ->
    events env this
    = [EvConnect cs appName; EvListDatabases client (testDb env);
       EvClose client (close env client)]
    /\ outcome env this
       = match listDatabases env client (testDb env) with
         | inl e => inl (catchHandler env this e)
         | inr databases =>
             match treeItems env this cs (filter keepDatabase databases) with
             | inl e => inl (catchHandler env this e)
             | inr items => inr items
             end
         end.
Proof.
  intros env this cs appName client Hemu Hcs Hne Happ Hconn.
  assert (Hsel : truthy (getDatabaseNameFromConnectionString env cs)
                 && negb (truthy_bool (isEmulator this)) = false).
  { rewrite Hemu. apply andb_false_r. }
  split.
  - run_with (tryBody_listed env this cs Hcs Hne appName Happ client Hconn Hsel).
    reflexivity.
  - run_with (tryBody_listed env this cs Hcs Hne appName Happ client Hconn Hsel).
    destruct (listDatabases env client (testDb env)); reflexivity.
Qed.


(** C4: when connecting fails on an account whose isEmulator flag is true
    and the parsed message of the error contains ECONNREFUSED, the listing
    throws that error with its message rewritten: the new message contains
    the link to the debugging tips and ends with the parsed message. And in
    every run, an error thrown inside the try block is thrown by the
    listing, as the handler leaves it; no failure turns into a result. *)
Theorem connection_refused_on_emulator :
  (forall (env : Env) (this : MongoAccountTreeItem) (cs appName : jsstring)
          (e : JsError),
      isEmulator this = Some true ->
      connectionString this = Some cs ->
      cs <> [] ->
      clientAppName env this = inr appName ->
      connectToMongoClient env cs appName = inl e ->
      includes (parsedMessage (parseError env e)) (lit "ECONNREFUSED") = true ->
      exists e',
        outcome env this = inl e'
        /\ message e' = emulatorMessage env (parsedMessage (parseError env e))
        /\ includes (message e') (LocalConnectionDebuggingTips env) = true
        /\ includes (message e') (parsedMessage (parseError env e)) = true
        /\ (exists prefix,
              message e' = prefix ++ parsedMessage (parseError env e)))
  /\ (forall (env : Env) (this : MongoAccountTreeItem) (e : JsError) (st : St),
        tryBody env this (mkSt None []) = (inl e, st) ->
        outcome env this = inl (catchHandler env this e)
        /\ (catchHandler env this e = e
            \/ catchHandler env this e
               = mkError (errName e)
                         (emulatorMessage env (parsedMessage (parseError env e)))))
  /\ (forall (env : Env) (this : MongoAccountTreeItem),
        (exists items, outcome env this = inr items) <->
        (exists items st, tryBody env this (mkSt None []) = (inr items, st))).
Proof.
  split; [|split].
  - intros env this cs appName e Hemu Hcs Hne Happ Hconn Hinc.
    exists (mkError (errName e)
                    (emulatorMessage env (parsedMessage (parseError env e)))).
    split; [|split; [|split; [|split]]].
    + run_with (tryBody_refused env this cs Hcs Hne appName Happ e Hconn).
      unfold catchHandler. now rewrite Hemu, Hinc.
    + reflexivity.
    + cbn [message]. unfold emulatorMessage.
      apply (JsFacts.includes_app (lit "Unable to reach emulator. See ")).
    + cbn [message]. rewrite emulatorMessage_split.
      apply JsFacts.includes_suffix.
    + cbn [message]. rewrite emulatorMessage_split. eexists. reflexivity.
  - intros env this e st Hbody. split.
    + run_with Hbody. reflexivity.
    + unfold catchHandler.
      destruct (truthy_bool (isEmulator this) && _); [now right|now left].
  - intros env this. unfold outcome. rewrite loadMoreChildrenImpl_run. simpl.
    destruct (tryBody env this (mkSt None [])) as [[e|items] st]; simpl; split.
    + intros [items H]. discriminate.
    + intros (items & st' & H). discriminate.
    + intros _. now exists items, st.
    + intros _. now exists items.
Qed.

(** The state the body leaves once the client is connected: the client is
    assigned, and the server was asked unless the connection string names
    the database of an account that is no emulator. *)
Lemma tryBody_connected_state env this cs appName client :
  connectionString this = Some cs ->
  cs <> [] ->
  clientAppName env this = inr appName ->
  connectToMongoClient env cs appName = inr client ->
  snd (tryBody env this (mkSt None []))
  = mkSt (Some client)
         (EvConnect cs appName ::
          if truthy (getDatabaseNameFromConnectionString env cs)
             && negb (truthy_bool (isEmulator this))
          then []
          else [EvListDatabases client (testDb env)]).
Proof.
  intros Hcs Hne Happ Hconn.
  destruct (truthy (getDatabaseNameFromConnectionString env cs)
            && negb (truthy_bool (isEmulator this))) eqn:Hsel.
  - apply andb_true_iff in Hsel as [HD Hemu].
    destruct (getDatabaseNameFromConnectionString env cs) as [[|n D]|] eqn:E;
      try discriminate HD.
    rewrite (tryBody_named env this cs Hcs Hne appName Happ client Hconn
               (n :: D) E); [reflexivity|discriminate|].
    intros H. rewrite H in Hemu. discriminate Hemu.
  - now rewrite (tryBody_listed env this cs Hcs Hne appName Happ client Hconn Hsel).
Qed.

(** Nothing before the [finally] block reads [close]. *)
Lemma tryBody_withClose env this closing (st : St) :
  tryBody (withClose env closing) this st = tryBody env this st.
Proof.
  reflexivity.
Qed.

(** However the call of [close()] completes, the method ends as [try] and
    [catch] did and the client, if one was assigned, is closed last; a call
    that throws puts its error in the place of the result or error. *)
Lemma loadMoreChildrenImplWith_run env this
    (closeCall : MongoClient -> CloseCall) :
  loadMoreChildrenImplWith env this closeCall
  = match mongoClient (snd (primary env this)) with
    | Some client =>
        match closeCall client with
        | CloseReturns promise =>
            (primaryOutcome env this,
             mkSt (Some client)
                  (trace (snd (primary env this)) ++ [EvClose client promise]))
        | CloseThrows e =>
            (inl e,
             mkSt (Some client)
                  (trace (snd (primary env this)) ++ [EvCloseThrew client e]))
        end
    | None => primary env this
    end.
Proof.
  unfold loadMoreChildrenImplWith, loadMoreChildrenImplWithM, primaryOutcome,
    primary, finally.
  destruct (tryCatch (tryBody env this) (catchHandler env this) (mkSt None []))
    as [r [c tr]].
  unfold finallyBlockWith, bind, getMongoClient. cbn [fst snd mongoClient trace].
  destruct c as [client|]; [|reflexivity].
  destruct (closeCall client); reflexivity.
Qed.

Lemma primary_state env this :
  snd (primary env this) = snd (tryBody env this (mkSt None [])).
Proof.
  unfold primary, tryCatch.
  destruct (tryBody env this (mkSt None [])) as [[e|items] st]; reflexivity.
Qed.

(** The method of the rest of this file is the one whose [close()] returns
    its promise. *)
Lemma loadMoreChildrenImpl_returning env this :
  loadMoreChildrenImpl env this
  = loadMoreChildrenImplWith env this
      (fun client => CloseReturns (close env client)).
Proof.
  reflexivity.
Qed.

(** C5, as the code has it: in every run in which the client connection
    opens, the call of close() is the last thing the listing does, once,
    whether try and catch ended in a result or in an error. When the call
    returns its promise, the listing ends as try and catch did, however the
    promise settles, a rejection included. When the call itself throws, the
    listing throws that error, in the place of its result or error: the
    finally block does not guard the call. *)
Theorem close_attempted_settlement_ignored :
  forall (env : Env) (this : MongoAccountTreeItem) (cs appName : jsstring)
         (client : MongoClient) (closeCall : MongoClient -> CloseCall),
    connectionString this = Some cs ->
    cs <> [] ->
    clientAppName env this = inr appName ->
    connectToMongoClient env cs appName = inr client ->
    (exists before,
        before = trace (snd (primary env this))
        /\ (forall c o, ~ In (EvClose c o) before)
        /\ (forall c e, ~ In (EvCloseThrew c e) before)
        /\ eventsWith env this closeCall
           = before ++ [match closeCall client with
                        | CloseReturns promise => EvClose client promise
                        | CloseThrows e => EvCloseThrew client e
                        end])
    /\ (forall promise,
          closeCall client = CloseReturns promise ->
          outcomeWith env this closeCall = primaryOutcome env this)
    /\ (forall e,
          closeCall client = CloseThrows e ->
          outcomeWith env this closeCall = inl e)
    /\ outcome env this = primaryOutcome env this.
Proof.
  intros env this cs appName client closeCall Hcs Hne Happ Hconn.
  pose proof (tryBody_connected_state env this cs appName client
                Hcs Hne Happ Hconn) as Hst.
  rewrite <- primary_state in Hst.
  split; [|split; [|split]].
  - eexists. split; [reflexivity|]. rewrite Hst. cbn [trace].
    split; [|split].
    + intros c o [H|H]; [discriminate|].
      destruct (truthy _ && _); [destruct H|].
      destruct H as [H|[]]. discriminate.
    + intros c e [H|H]; [discriminate|].
      destruct (truthy _ && _); [destruct H|].
      destruct H as [H|[]]. discriminate.
    + unfold eventsWith. rewrite loadMoreChildrenImplWith_run, Hst.
      cbn [mongoClient trace]. destruct (closeCall client); reflexivity.
  - intros promise Hclose. unfold outcomeWith.
    rewrite loadMoreChildrenImplWith_run, Hst. cbn [mongoClient].
    now rewrite Hclose.
  - intros e Hclose. unfold outcomeWith.
    rewrite loadMoreChildrenImplWith_run, Hst. cbn [mongoClient].
    now rewrite Hclose.
  - unfold outcome. rewrite loadMoreChildrenImpl_returning.
    rewrite loadMoreChildrenImplWith_run, Hst. reflexivity.
Qed.

(** C6: an account whose connection string is undefined or empty makes the
    listing throw the error Missing connection string at once: nothing is
    connected, listed or closed. (Of [parseError] this takes that, on an
    emulator account, its reading of that error does not contain
    ECONNREFUSED.) *)
Theorem missing_connection_string :
  forall (env : Env) (this : MongoAccountTreeItem),
    truthy (connectionString this) = false ->
    truthy_bool (isEmulator this)
    && includes
         (parsedMessage
            (parseError env (newError (lit "Missing connection string"))))
         (lit "ECONNREFUSED") = false ->
    outcome env this = inl (newError (lit "Missing connection string"))
    /\ events env this = []
    /\ mongoClient (snd (loadMoreChildrenImpl env this)) = None.
Proof.
  intros env this Hcs Hparse.
  repeat split; run_with (tryBody_missing env this Hcs); try reflexivity.
  unfold catchHandler. now rewrite Hparse.
Qed.


(** C10: when the server's listing has an entry without a name, the filter
    keeps that entry and the listing throws (the error of [nonNullProp] for
    the property name, as the handler leaves it): it returns no children,
    neither the others nor a part of them. *)
Theorem nameless_entry_fails :
  forall (env : Env) (this : MongoAccountTreeItem) (cs appName : jsstring)
         (client : MongoClient) (databases : list IDatabaseInfo)
         (d : IDatabaseInfo),
    connectionString this = Some cs ->
    cs <> [] ->
    clientAppName env this = inr appName ->
    connectToMongoClient env cs appName = inr client ->
    truthy (getDatabaseNameFromConnectionString env cs)
    && negb (truthy_bool (isEmulator this)) = false ->
    listDatabases env client (testDb env) = inr databases ->
    In d databases ->
    name d = None ->
    keepDatabase d = true
    /\ outcome env this
       = inl (catchHandler env this (nonNullError env (lit "name")))
    /\ (forall items, outcome env this <> inr items).
Proof.
  intros env this cs appName client databases d
         Hcs Hne Happ Hconn Hsel Hlist Hin Hname.
  assert (Hout : outcome env this
                 = inl (catchHandler env this (nonNullError env (lit "name")))).
  { run_with (tryBody_listed env this cs Hcs Hne appName Happ client Hconn Hsel).
    rewrite Hlist, treeItems_nameless; [reflexivity|].
    exists d. split; [|assumption].
    apply filter_In. split; [assumption|now apply keepDatabase_nameless]. }
  split; [now apply keepDatabase_nameless|]. split; [assumption|].
  intros items. rewrite Hout. discriminate.
Qed.

End ListingProperties.

(** ** The properties on the sample accounts *)

Module Instances.

Import Listing ListingProperties Samples.

Ltac closed_side := first [reflexivity | discriminate].



(** An emulator whose connection string names Sales: the server is asked. *)
Lemma emulator_always_lists_witness :
  isEmulator salesEmulator = Some true
  /\ getDatabaseNameFromConnectionString env salesUrl = Some (lit "Sales")
  /\ events env salesEmulator
     = [EvConnect salesUrl (lit "vscode-cosmosdb");
        EvListDatabases 7%nat (lit "test");
        EvClose 7%nat (Rejected (newError (lit "Topology was destroyed")))].
Proof.
  split; [reflexivity|]. split; [reflexivity|].
  apply (emulator_always_lists env salesEmulator salesUrl (lit "vscode-cosmosdb")
           7%nat); closed_side.
Defined.

(** An emulator that is not running: connecting is refused and no
    list-databases call is made. *)
Lemma emulator_connection_refused_no_listing :
  isEmulator salesEmulator = Some true
  /\ events envRefused salesEmulator
     = [EvConnect salesUrl (lit "vscode-cosmosdb")]
  /\ forall client db,
       ~ In (EvListDatabases client db) (events envRefused salesEmulator).
Proof.
  split; [reflexivity|]. split; [reflexivity|].
  intros client db [H|[]]. discriminate.
Qed.



(** Connection refused on an emulator: the message is rewritten. *)
Lemma connection_refused_on_emulator_witness :
  exists e',
    outcome envRefused salesEmulator = inl e'
    /\ message e'
       = lit "Unable to reach emulator. See https://aka.ms/AA5zah5 for debugging tips."
         ++ [10] ++ lit "connect ECONNREFUSED 127.0.0.1:10255"
    /\ includes (message e') (lit "https://aka.ms/AA5zah5") = true
    /\ includes (message e') (message refused) = true.
Proof.
  destruct (proj1 connection_refused_on_emulator envRefused salesEmulator
              salesUrl (lit "vscode-cosmosdb") refused)
    as (e' & H1 & H2 & H3 & H4 & _); try closed_side.
  exists e'. repeat split; assumption.
Defined.

(** Sales is listed and the promise of close() is rejected: the listing
    returns Sales. On the plain account the list call is refused and the
    promise is rejected: the listing throws the list error. *)
Lemma close_attempted_settlement_ignored_witness :
  outcomeWith env salesAccount (fun _ => CloseReturns (Rejected closeError))
  = inr [mkDatabaseItem salesAccount (lit "Sales") salesUrl]
  /\ eventsWith env salesAccount (fun _ => CloseReturns (Rejected closeError))
     = [EvConnect salesUrl (lit "vscode-cosmosdb")]
       ++ [EvClose 7%nat (Rejected closeError)]
  /\ outcomeWith envListRefused plainAccount
       (fun _ => CloseReturns (Rejected closeError))
     = inl refused.
Proof.
  destruct (close_attempted_settlement_ignored env salesAccount salesUrl
              (lit "vscode-cosmosdb") 7%nat
              (fun _ => CloseReturns (Rejected closeError)))
    as [(before & Hb & _ & _ & E1) [R1 _]]; try closed_side.
  destruct (close_attempted_settlement_ignored envListRefused plainAccount
              plainUrl (lit "vscode-cosmosdb") 7%nat
              (fun _ => CloseReturns (Rejected closeError)))
    as [_ [R2 _]]; try closed_side.
  split; [exact (R1 (Rejected closeError) eq_refl)|].
  split; [rewrite E1, Hb; reflexivity|].
  exact (R2 (Rejected closeError) eq_refl).
Defined.

(** A close() that throws: the listing that had Sales to return throws the
    error of close(), and the listing that had the list error to throw
    throws the error of close() in its place. *)
Lemma close_that_throws_masks_the_listing :
  primaryOutcome env salesAccount
  = inr [mkDatabaseItem salesAccount (lit "Sales") salesUrl]
  /\ outcomeWith env salesAccount throwingClose = inl closeError
  /\ primaryOutcome envListRefused plainAccount = inl refused
  /\ outcomeWith envListRefused plainAccount throwingClose = inl closeError
  /\ closeError <> refused
  /\ eventsWith env salesAccount throwingClose
     = [EvConnect salesUrl (lit "vscode-cosmosdb");
        EvCloseThrew 7%nat closeError].
Proof.
  repeat split; try reflexivity. discriminate.
Qed.

(** An emulator account with an empty connection string. *)
Lemma missing_connection_string_witness :
  outcome env emptyAccount = inl (newError (lit "Missing connection string"))
  /\ events env emptyAccount = []
  /\ mongoClient (snd (loadMoreChildrenImpl env emptyAccount)) = None.
Proof.
  apply (missing_connection_string env emptyAccount); reflexivity.
Defined.



(** The listing Sales, then an entry without a name: no children. *)
Lemma nameless_entry_fails_witness :
  In (mkInfo None (Some false)) namelessListing
  /\ outcome envNameless plainAccount
     = inl (newError (lit "Expected a value: name"))
  /\ forall items, outcome envNameless plainAccount <> inr items.
Proof.
  split; [right; left; reflexivity|].
  destruct (nameless_entry_fails envNameless plainAccount plainUrl
              (lit "vscode-cosmosdb") 7%nat namelessListing
              (mkInfo None (Some false)))
    as (_ & H1 & H2); try closed_side.
  - right; left; reflexivity.
  - split; [exact H1|exact H2].
Defined.

End Instances.

(** ** Further properties of the listing *)

Module ListingRuns.

Import Listing ListingFacts Direct.

(** The monadic body ends where the case analysis says. *)
Lemma tryBody_direct (env : Env) (this : MongoAccountTreeItem) :
  tryBody env this (mkSt None []) = bodyResult env this.
Proof.
  unfold bodyResult.
  destruct (connectionString this) as [[|c cs']|] eqn:Hcs.
  - apply tryBody_missing. now rewrite Hcs.
  - assert (Hne : c :: cs' <> []) by discriminate.
    destruct (clientAppName env this) as [e|appName] eqn:Happ.
    + now apply (tryBody_no_appName env this (c :: cs')).
    + destruct (connectToMongoClient env (c :: cs') appName) as [e|client] eqn:Hconn.
      * now apply (tryBody_refused env this (c :: cs')).
      * cbn zeta.
        destruct (truthy (getDatabaseNameFromConnectionString env (c :: cs'))
                  && negb (truthy_bool (isEmulator this))) eqn:Hsel.
        -- rewrite (tryBody_connected env this (c :: cs') Hcs Hne appName Happ
                      client Hconn).
           unfold bind at 1. unfold selectDatabases. rewrite Hsel. unfold ret.
           apply mapM_toTreeItem.
        -- now apply (tryBody_listed env this (c :: cs')).
  - apply tryBody_missing. now rewrite Hcs.
Qed.

Lemma loadMoreChildrenImpl_direct (env : Env) (this : MongoAccountTreeItem) :
  loadMoreChildrenImpl env this
  = (match fst (bodyResult env this) with
     | inl e => inl (catchHandler env this e)
     | inr items => inr items
     end,
     match mongoClient (snd (bodyResult env this)) with
     | Some client =>
         mkSt (Some client)
              (trace (snd (bodyResult env this))
               ++ [EvClose client (close env client)])
     | None => snd (bodyResult env this)
     end).
Proof.
  rewrite loadMoreChildrenImpl_run, tryBody_direct. reflexivity.
Qed.

(** What [treeItems] returns follows its input, entry by entry. *)
Lemma treeItems_inr env this cs (l : list IDatabaseInfo) items :
  treeItems env this cs l = inr items ->
  map (fun item => Some (databaseName item)) items = map name l
  /\ Forall (fun item => parent item = this /\ itemConnectionString item = cs)
            items.
Proof.
  revert items; induction l as [|d l IH]; simpl; intros items H.
  - injection H as <-. split; constructor.
  - destruct (name d) as [n|]; [|discriminate].
    destruct (treeItems env this cs l) as [e|rest]; [discriminate|].
    injection H as <-. destruct (IH rest eq_refl) as [Hn Hp]. split.
    + simpl. now rewrite Hn.
    + constructor; [now split|assumption].
Qed.



(** The descriptor of lines 67-70 passes the filter and the map. *)
Lemma treeItems_named_database env this cs (D : jsstring) :
  treeItems env this cs (filter keepDatabase [mkInfo (Some D) (Some false)])
  = inr [mkDatabaseItem this D cs].
Proof.
  unfold filter. rewrite keepDatabase_not_empty by (simpl; congruence).
  reflexivity.
Qed.

Lemma selected_named env this cs :
  truthy (getDatabaseNameFromConnectionString env cs)
  && negb (truthy_bool (isEmulator this)) = true ->
  exists D, getDatabaseNameFromConnectionString env cs = Some D
            /\ D <> [] /\ isEmulator this <> Some true.
Proof.
  intros H. apply andb_true_iff in H as [HD Hemu].
  destruct (getDatabaseNameFromConnectionString env cs) as [[|n D]|];
    try discriminate HD.
  exists (n :: D). split; [reflexivity|]. split; [discriminate|].
  intros E. rewrite E in Hemu. discriminate Hemu.
Qed.

Ltac run_cases env this c cs' Hcs e appName Happ client Hconn Hsel :=
  unfold outcome, events; rewrite loadMoreChildrenImpl_direct;
  unfold bodyResult;
  destruct (connectionString this) as [[|c cs']|] eqn:Hcs;
  [ | destruct (clientAppName env this) as [e|appName] eqn:Happ;
      [ | destruct (connectToMongoClient env (c :: cs') appName)
            as [e|client] eqn:Hconn;
          [ | cbn zeta;
              destruct (truthy (getDatabaseNameFromConnectionString env (c :: cs'))
                        && negb (truthy_bool (isEmulator this))) eqn:Hsel ] ]
  | ];
  cbn [fst snd mongoClient trace app].

(** X1: a run of the listing does one of four things and nothing else:
    nothing at all (no usable connection string, or an account record
    without a name); one connection attempt that fails; connect and close;
    connect, one list-databases call and close. So there is at most one
    connection attempt, at most one list call, the client listed and closed
    is the one the connection returned, and a client is closed exactly when
    one was opened. *)
Theorem listing_events_shape :
  forall (env : Env) (this : MongoAccountTreeItem),
    (events env this = []
     /\ (truthy (connectionString this) = false
         \/ exists e, clientAppName env this = inl e))
    \/ exists cs appName,
         connectionString this = Some cs /\ cs <> []
         /\ clientAppName env this = inr appName
         /\ ((exists e, connectToMongoClient env cs appName = inl e
                        /\ events env this = [EvConnect cs appName])
             \/ exists client,
                  connectToMongoClient env cs appName = inr client
                  /\ ((events env this
                       = [EvConnect cs appName;
                          EvClose client (close env client)]
                       /\ truthy (getDatabaseNameFromConnectionString env cs)
                          && negb (truthy_bool (isEmulator this)) = true)
                      \/ (events env this
                          = [EvConnect cs appName;
                             EvListDatabases client (testDb env);
                             EvClose client (close env client)]
                          /\ truthy (getDatabaseNameFromConnectionString env cs)
                             && negb (truthy_bool (isEmulator this)) = false))).
Proof.
  intros env this.
  run_cases env this c cs' Hcs e appName Happ client Hconn Hsel.
  - left. split; [reflexivity|now left].
  - left. split; [reflexivity|right; now exists e].
  - right. exists (c :: cs'), appName.
    split; [first [assumption|reflexivity]|]. split; [discriminate|]. split; [first [assumption|reflexivity]|].
    left. exists e. now split.
  - right. exists (c :: cs'), appName.
    split; [first [assumption|reflexivity]|]. split; [discriminate|]. split; [first [assumption|reflexivity]|].
    right. exists client. split; [first [assumption|reflexivity]|]. left. now split.
  - right. exists (c :: cs'), appName.
    split; [first [assumption|reflexivity]|]. split; [discriminate|]. split; [first [assumption|reflexivity]|].
    right. exists client. split; [first [assumption|reflexivity]|]. right. now split.
  - left. split; [reflexivity|now left].
Qed.


(** X3: whenever the listing returns children, a client was connected
    with the account's non-empty connection string and closed at the end;
    every child hangs under this account and carries its connection string;
    and the children's names are either the one database the connection
    string names, or, in order, the names of the entries of the server's
    list that pass the filter. No child is made up. *)
Theorem returned_children_invariant :
  forall (env : Env) (this : MongoAccountTreeItem)
         (items : list MongoDatabaseTreeItem),
    outcome env this = inr items ->
    exists cs appName client,
      connectionString this = Some cs /\ cs <> []
      /\ connectToMongoClient env cs appName = inr client
      /\ (exists between,
            events env this
            = EvConnect cs appName :: between
              ++ [EvClose client (close env client)])
      /\ Forall (fun item => parent item = this
                             /\ itemConnectionString item = cs) items
      /\ ((exists D,
             getDatabaseNameFromConnectionString env cs = Some D
             /\ isEmulator this <> Some true
             /\ items = [mkDatabaseItem this D cs])
          \/ (exists databases,
                listDatabases env client (testDb env) = inr databases
                /\ map (fun item => Some (databaseName item)) items
                   = map name (filter keepDatabase databases))).
Proof.
  intros env this items.
  unfold outcome, events. rewrite loadMoreChildrenImpl_direct.
  unfold bodyResult.
  destruct (connectionString this) as [[|c cs']|] eqn:Hcs;
    cbn [fst snd]; try discriminate.
  destruct (clientAppName env this) as [e|appName] eqn:Happ;
    cbn [fst snd]; try discriminate.
  destruct (connectToMongoClient env (c :: cs') appName) as [e|client] eqn:Hconn;
    cbn [fst snd]; try discriminate.
  cbn zeta.
  destruct (truthy (getDatabaseNameFromConnectionString env (c :: cs'))
            && negb (truthy_bool (isEmulator this))) eqn:Hsel;
    cbn [fst snd mongoClient trace app]; intros H;
    exists (c :: cs'), appName, client;
    (split; [reflexivity|]); (split; [discriminate|]); (split; [assumption|]).
  - destruct (selected_named env this _ Hsel) as (D & HD & _ & Hemu).
    rewrite HD, treeItems_named_database in H. injection H as <-.
    split; [now exists []|]. split.
    + constructor; [now split|constructor].
    + left. exists D. now repeat split.
  - destruct (listDatabases env client (testDb env)) as [e|databases] eqn:Hl;
      [discriminate H|].
    destruct (treeItems env this (c :: cs') (filter keepDatabase databases))
      as [e|items'] eqn:Ht; [discriminate H|].
    injection H as <-.
    destruct (treeItems_inr env this (c :: cs') _ _ Ht) as [Hn Hp].
    split; [now exists [EvListDatabases client (testDb env)]|].
    split; [assumption|]. right. exists databases. now split.
Qed.

Lemma treeItems_withParser env reading this cs (l : list IDatabaseInfo) :
  treeItems (withParser env reading) this cs l = treeItems env this cs l.
Proof.
  induction l as [|d l IH]; [reflexivity|].
  simpl. rewrite IH. reflexivity.
Qed.

(** X4: on an account whose isEmulator flag is true the listing does not
    depend on what the connection string is read to name: with any other
    reading of connection strings, the result, the error and the calls made
    are the same. *)
Theorem emulator_ignores_named_database :
  forall (env : Env) (this : MongoAccountTreeItem)
         (reading : jsstring -> option jsstring),
    isEmulator this = Some true ->
    loadMoreChildrenImpl (withParser env reading) this
    = loadMoreChildrenImpl env this.
Proof.
  intros env this reading Hemu.
  assert (E : bodyResult (withParser env reading) this = bodyResult env this).
  { unfold bodyResult.
    change (clientAppName (withParser env reading) this)
      with (clientAppName env this).
    destruct (connectionString this) as [[|c cs']|]; try reflexivity.
    destruct (clientAppName env this) as [e|appName]; [reflexivity|].
    change (connectToMongoClient (withParser env reading))
      with (connectToMongoClient env).
    destruct (connectToMongoClient env (c :: cs') appName) as [e|client];
      [reflexivity|].
    cbn zeta. rewrite Hemu. cbn [truthy_bool negb].
    rewrite !andb_false_r.
    change (listDatabases (withParser env reading)) with (listDatabases env).
    change (testDb (withParser env reading)) with (testDb env).
    destruct (listDatabases env client (testDb env)) as [e|databases];
      [reflexivity|].
    now rewrite treeItems_withParser. }
  rewrite !loadMoreChildrenImpl_direct, E. reflexivity.
Qed.

(** X5: the client is connected under the account's name when the tree
    item has an account record, and under the extension's user agent when
    it has none; with an account record that has no name, nothing is
    connected at all and the listing throws the error of [nonNullProp]. *)
Theorem connection_app_name :
  forall (env : Env) (this : MongoAccountTreeItem) (cs : jsstring),
    connectionString this = Some cs ->
    cs <> [] ->
    match databaseAccount this with
    | None =>
        exists rest,
          events env this
          = EvConnect cs (appendExtensionUserAgent env) :: rest
    | Some account =>
        match accountName account with
        | Some n => exists rest, events env this = EvConnect cs n :: rest
        | None =>
            events env this = []
            /\ outcome env this
               = inl (catchHandler env this (nonNullError env (lit "name")))
        end
    end.
Proof.
  intros env this cs Hcs Hne.
  unfold outcome, events. rewrite loadMoreChildrenImpl_direct.
  unfold bodyResult, clientAppName, nonNullProp. rewrite Hcs.
  destruct cs as [|c cs']; [congruence|].
  destruct (databaseAccount this) as [[[n|]]|]; cbn [accountName].
  - destruct (connectToMongoClient env (c :: cs') n) as [e|client];
      [now exists []|].
    cbn zeta. destruct (truthy _ && _); cbn [fst snd mongoClient trace app];
      eexists; reflexivity.
  - split; reflexivity.
  - destruct (connectToMongoClient env (c :: cs') (appendExtensionUserAgent env))
      as [e|client]; [now exists []|].
    cbn zeta. destruct (truthy _ && _); cbn [fst snd mongoClient trace app];
      eexists; reflexivity.
Qed.

End ListingRuns.

(** ** Further properties of the validation *)

Module ValidationAlgebra.

Import Validation ValidationFacts.

Lemma accepted_iff (s : jsstring) :
  validateDatabaseName (Some s) = None <->
  (1 <= List.length s <= 63)%nat /\ existsb (in_class forbidden) s = false.
Proof.
  unfold validateDatabaseName. rewrite validateDatabaseNameOn_eq. cbn [fst].
  destruct (Nat.ltb (List.length s) 1) eqn:L1;
    destruct (Nat.ltb 63 (List.length s)) eqn:L2; cbn [orb]; nat_cmp;
    try (split; [discriminate|intros [H _]; lia]).
  destruct (existsb (in_class forbidden) s).
  - split; [discriminate|intros [_ H]; discriminate H].
  - split; [intros _; split; [lia|reflexivity]|reflexivity].
Qed.

Lemma too_long (s : jsstring) :
  (63 < List.length s)%nat -> validateDatabaseName (Some s) = Some lengthMessage.
Proof.
  intros H. unfold validateDatabaseName. rewrite validateDatabaseNameOn_eq.
  cbn [fst]. apply PeanoNat.Nat.ltb_lt in H. rewrite H.
  now rewrite orb_true_r.
Qed.

(** X6: every non-empty piece of an accepted name is accepted: if
    validation has no message for a name, it has none for any non-empty
    run of consecutive characters of it. *)
Theorem accepted_substring :
  forall before s after : jsstring,
    validateDatabaseName (Some (before ++ s ++ after)) = None ->
    s <> [] ->
    validateDatabaseName (Some s) = None.
Proof.
  intros before s after H Hne. apply accepted_iff in H as [Hlen Hchars].
  apply accepted_iff. split.
  - rewrite !length_app in Hlen. destruct s; [congruence|]. simpl in *. lia.
  - rewrite !existsb_app in Hchars.
    apply orb_false_iff in Hchars as [_ Hchars].
    now apply orb_false_iff in Hchars as [Hchars _].
Qed.

(** X7: joining two accepted names can only fail on length: the joined
    name is accepted when it has at most 63 code units, and gets the length
    message otherwise, never the characters message. *)
Theorem accepted_concatenation :
  forall s t : jsstring,
    validateDatabaseName (Some s) = None ->
    validateDatabaseName (Some t) = None ->
    validateDatabaseName (Some (s ++ t))
    = if Nat.leb (List.length s + List.length t) 63
      then None
      else Some lengthMessage.
Proof.
  intros s t Hs Ht.
  apply accepted_iff in Hs as [Ls Cs]. apply accepted_iff in Ht as [Lt Ct].
  destruct (Nat.leb (List.length s + List.length t) 63) eqn:L.
  - apply PeanoNat.Nat.leb_le in L. apply accepted_iff. split.
    + rewrite length_app. lia.
    + rewrite existsb_app, Cs, Ct. reflexivity.
  - apply PeanoNat.Nat.leb_gt in L. apply too_long. rewrite length_app. lia.
Qed.

End ValidationAlgebra.

(** ** Creating a child *)

Module CreationFacts.

Import Listing Validation Creation.

Lemma firstAccepted_falsy validate (attempts : list jsstring) value :
  firstAccepted validate attempts = Some value ->
  truthy (validate value) = false /\ In value attempts.
Proof.
  induction attempts as [|a rest IH]; simpl; [discriminate|].
  destruct (truthy (validate a)) eqn:E.
  - intros H. destruct (IH H). auto.
  - intros H. injection H as <-. auto.
Qed.

(** The scripted input box honours its validator, whatever is typed. *)
Lemma scriptedUi_honours (attempts : list jsstring) :
  honoursValidator (scriptedUi attempts).
Proof.
  intros options value. unfold scriptedUi. cbn [showInputBox].
  destruct (firstAccepted (validateInput options) attempts) as [v|] eqn:E;
    [|discriminate].
  intros H. injection H as <-. now apply (firstAccepted_falsy _ attempts).
Qed.

Lemma messages_truthy (database : option jsstring) :
  truthy (validateDatabaseName database) = false ->
  validateDatabaseName database = None.
Proof.
  unfold validateDatabaseName.
  rewrite ValidationFacts.validateDatabaseNameOn_eq. cbn [fst].
  destruct database as [s|]; [|discriminate].
  destruct (Nat.ltb (List.length s) 1 || Nat.ltb 63 (List.length s));
    [discriminate|].
  destruct (existsb (in_class forbidden) s); [discriminate|reflexivity].
Qed.

(** X8: with an input box that honours its validator, [createChildImpl]
    either throws what the input box threw, having shown no item, or
    returns a child of this account, with the account's connection string
    as it is, whose name has between 1 and 63 code units and none of the
    forbidden characters; that name is the one shown as being created. *)
Theorem created_child_is_valid :
  forall (ui : Ui) (this : MongoAccountTreeItem),
    honoursValidator ui ->
    match createChildImpl ui this with
    | (inr item, shown) =>
        showInputBox ui nameOptions = inr (newDatabaseName item)
        /\ newParent item = this
        /\ newConnectionString item = connectionString this
        /\ (1 <= List.length (newDatabaseName item) <= 63)%nat
        /\ ~ Spec.hasForbidden (newDatabaseName item)
        /\ shown = [EvShowInputBox (lit "Database Name")
                                   (lit "Enter the name of the database");
                    EvShowCreatingTreeItem (newDatabaseName item)]
    | (inl e, shown) =>
        showInputBox ui nameOptions = inl e
        /\ shown = [EvShowInputBox (lit "Database Name")
                                   (lit "Enter the name of the database")]
    end.
Proof.
  intros ui this Hui. unfold createChildImpl.
  destruct (showInputBox ui nameOptions) as [e|databaseName] eqn:E.
  - split; reflexivity.
  - cbn [newDatabaseName newParent newConnectionString].
    pose proof (Hui nameOptions databaseName E) as Hv.
    cbn [validateInput nameOptions] in Hv. apply messages_truthy in Hv.
    apply ValidationAlgebra.accepted_iff in Hv as [Hlen Hchars].
    repeat split; try lia.
    intros Hbad. apply ValidationFacts.existsb_forbidden in Hbad. congruence.
Qed.

End CreationFacts.

(** ** The further properties on the sample accounts *)

Module MoreInstances.

Import Listing Direct Creation Validation Samples.
Import ListingRuns ValidationAlgebra CreationFacts.


(** The specification's listing on the plain account. *)
Lemma returned_children_invariant_witness :
  exists items,
    outcome env plainAccount = inr items
    /\ Forall (fun item => parent item = plainAccount
                           /\ itemConnectionString item = plainUrl) items.
Proof.
  destruct (treeItems env plainAccount plainUrl
              (filter keepDatabase exampleListing)) as [e|items] eqn:E;
    [discriminate E|].
  exists items. split; [exact E|].
  destruct (returned_children_invariant env plainAccount items E)
    as (cs & appName & client & Hcs & _ & _ & _ & Hp & _).
  injection Hcs as <-. exact Hp.
Defined.

(** The emulator on .../Sales, read as naming nothing or as naming Sales:
    the same run. *)
Lemma emulator_ignores_named_database_witness :
  loadMoreChildrenImpl (withParser env (fun _ => None)) salesEmulator
  = loadMoreChildrenImpl env salesEmulator.
Proof.
  apply (emulator_ignores_named_database env salesEmulator (fun _ => None)).
  reflexivity.
Defined.

(** An account record named cosmos-prod, and one without a name. *)
Lemma connection_app_name_witness :
  (exists rest,
      events env
        (mkAccount (lit "id") (lit "label") (Some plainUrl) None
                   (Some (mkAccountResults (Some (lit "cosmos-prod")))))
      = EvConnect plainUrl (lit "cosmos-prod") :: rest)
  /\ events env
       (mkAccount (lit "id") (lit "label") (Some plainUrl) None
                  (Some (mkAccountResults None)))
     = [].
Proof.
  split.
  - apply (connection_app_name env
             (mkAccount (lit "id") (lit "label") (Some plainUrl) None
                        (Some (mkAccountResults (Some (lit "cosmos-prod")))))
             plainUrl); [reflexivity|discriminate].
  - apply (connection_app_name env
             (mkAccount (lit "id") (lit "label") (Some plainUrl) None
                        (Some (mkAccountResults None)))
             plainUrl); [reflexivity|discriminate].
Defined.

Lemma accepted_substring_witness :
  validateDatabaseName (Some (lit "Sales2024")) = None
  /\ validateDatabaseName (Some (lit "les20")) = None.
Proof.
  split; [reflexivity|].
  apply (accepted_substring (lit "Sa") (lit "les20") (lit "24"));
    [reflexivity|discriminate].
Defined.

Lemma accepted_concatenation_witness :
  validateDatabaseName (Some (repeat 120 40 ++ repeat 121 23)) = None
  /\ validateDatabaseName (Some (repeat 120 40 ++ repeat 121 24))
     = Some lengthMessage.
Proof.
  split.
  - apply (accepted_concatenation (repeat 120 40) (repeat 121 23));
      reflexivity.
  - apply (accepted_concatenation (repeat 120 40) (repeat 121 24));
      reflexivity.
Defined.

(** The user types My/DB, which the box refuses, then Sales2024. *)
Lemma created_child_is_valid_witness :
  createChildImpl (scriptedUi [lit "My/DB"; lit "Sales2024"]) salesAccount
  = (inr (mkNewItem salesAccount (lit "Sales2024") (Some salesUrl)),
     [EvShowInputBox (lit "Database Name")
                     (lit "Enter the name of the database");
      EvShowCreatingTreeItem (lit "Sales2024")])
  /\ (1 <= List.length (lit "Sales2024") <= 63)%nat.
Proof.
  split; [reflexivity|].
  pose proof (created_child_is_valid
                (scriptedUi [lit "My/DB"; lit "Sales2024"]) salesAccount
                (scriptedUi_honours _)) as H.
  exact (proj1 (proj2 (proj2 (proj2 H)))).
Defined.

End MoreInstances.
